(** * ws-scrcpy: [DeviceScreen.ts]

    A shallow embedding of the browser-side session controller of
    ws-scrcpy ([src/DeviceScreen.ts]) and the properties of its
    pointer-to-device coordinate mapping, of its handling of inbound
    messages and of its pointer tracking.

    - JavaScript numbers that carry coordinates are IEEE 754 binary64
      values: they are modelled by Rocq's primitive floats, whose
      operations are the binary64 ones, so that the arithmetic of
      [buildMotionEvent] is the arithmetic the browser performs.
    - Event handlers run to completion one after the other.  A handler is
      a function from the object's state to a completion (normal or
      abrupt), the next state and the list of calls it made on its
      collaborators (socket, decoder, console, DOM event). *)

From Stdlib Require Import Floats.
From Stdlib Require Import ZArith List String Bool Lia.
Import ListNotations.

#[local] Set Warnings "-register-all".
Local Open Scope float_scope.

(** ** JavaScript numbers *)

Module JS.

Notation "x >? y" := (PrimFloat.ltb y x) (at level 70, no associativity) : float_scope.

(** 2^52: from this magnitude on every binary64 value is integral. *)
Definition two52 : float := 4503599627370496.

(** The sign bit of a number, zeros included. *)
Definition signbit (x : float) : bool :=
  match classify x with
  | NNormal | NSubn | NZero | NInf => true
  | _ => false
  end.

(** Nearest integral value (ties to even) of a number of magnitude
    below 2^52: adding 2^52 moves the value to the binade whose unit in
    the last place is one. *)
Definition rint (x : float) : float :=
  if 0 <=? x then (x + two52) - two52 else (x - two52) + two52.

(** [integral x] holds of NaN and of the infinities too: the callers
    below return such an argument as it is, like [Math.ceil] and
    [Math.round] do. *)
Definition integral (x : float) : bool :=
  if abs x <? two52 then rint x =? x else true.

(** [Math.floor]. *)
Definition Math_floor (x : float) : float :=
  if integral x then x
  else
    let r := rint x in
    let f := if x <? r then r - 1 else r in
    if f =? 0 then 0 else f.

(** [Math.ceil]: the smallest integral number not below [x]; an
    argument in (-1, 0) gives -0. *)
Definition Math_ceil (x : float) : float :=
  if integral x then x
  else
    let r := rint x in
    let c := if r <? x then r + 1 else r in
    if c =? 0 then -0 else c.

(** [Math.round]: the integral number closest to [x], the one towards
    +Infinity when two are equally close; an argument in [-0.5, 0)
    gives -0. *)
Definition Math_round (x : float) : float :=
  if integral x then x
  else
    let f := Math_floor x in
    let r := if 0.5 <=? x - f then f + 1 else f in
    if r =? 0 then (if signbit x then -0 else 0) else r.

End JS.
Import JS.

(** ** Values exchanged with the collaborators *)

(** The result of [JSON.parse]. *)
Inductive JSValue : Type :=
| JNull
| JBool (b : bool)
| JNumber (n : float)
| JString (s : string)
| JArray (items : list JSValue)
| JObject (members : list (string * JSValue)).

(** Property read [v.name] on a parsed value that is not [null]: own
    members of an object; nothing ([undefined]) on the other values for
    the names read here ([type], [message]). *)
Fixpoint member (name : string) (members : list (string * JSValue)) : option JSValue :=
  match members with
  | [] => None
  | (k, v) :: rest => if String.eqb k name then Some v else member name rest
  end.

Definition get_property (v : JSValue) (name : string) : option JSValue :=
  match v with
  | JObject members => member name members
  | _ => None
  end.

Module StreamInfo.

(** Modelled from the spec: [StreamInfo.ts] is not among the sources.
    The spec gives the fields (width, height, frame rate, and codec
    parameters that this module never reads) and says that equality is
    by value. *)
Record t : Type := mk {
  width : float;
  height : float;
  frameRate : float;
  codec : string
}.

Definition equals (a b : t) : bool :=
  (width a =? width b) && (height a =? height b)
  && (frameRate a =? frameRate b) && String.eqb (codec a) (codec b).

End StreamInfo.

Module Point.
(** Modelled from the spec: [Point.ts] is not among the sources. *)
Record t : Type := mk { x : float; y : float }.
End Point.

Module Size.
(** Modelled from the spec: [Size.ts] is not among the sources. *)
Record t : Type := mk { width : float; height : float }.
End Size.

Module Position.
(** Modelled from the spec: [Position.ts] is not among the sources. *)
Record t : Type := mk { point : Point.t; screenSize : Size.t }.
End Position.

(** [new MotionControlEvent(action, buttons, position)]; [buttons] is
    [None] when the constructor is given [undefined]. *)
Record MotionControlEvent : Type := mkMotionControlEvent {
  action : Z;
  buttons : option Z;
  position : Position.t
}.

Arguments mkMotionControlEvent action%_Z buttons position.

(** A [ControlEvent] is a motion event or an event of another kind, of
    which this module knows only [toBuffer]. *)
Inductive ControlEvent : Type :=
| Motion (m : MotionControlEvent)
| Command (kind : Z) (payload : list Z).

(** The part of an [HTMLElement] the module reads; [node] is the identity
    of the element, what [===] compares. *)
Record HTMLElement : Type := mkHTMLElement {
  node : nat;
  clientWidth : float;
  clientHeight : float;
  offsetLeft : float;
  offsetTop : float
}.

Record MouseEvent : Type := mkMouseEvent {
  type : string;
  button : Z;
  clientX : float;
  clientY : float;
  target : HTMLElement
}.

(** What [ws.onmessage] finds in [e.data] with [binaryType = 'arraybuffer']. *)
Inductive MessageData : Type :=
| ArrayBuffer (bytes : list Z)
| Text (s : string).

(** [String(data)], the conversion [JSON.parse] applies to its argument. *)
Definition ToString (d : MessageData) : string :=
  match d with
  | ArrayBuffer _ => "[object ArrayBuffer]"
  | Text s => s
  end.

(** What the module imports and this file does not contain: the
    constants of [MotionEvent.ts], the constructor of [StreamInfo.ts] and
    the host's [JSON.parse] ([None] stands for its [SyntaxError]). *)
Class Imports : Type := {
  ACTION_DOWN : Z;
  ACTION_MOVE : Z;
  ACTION_UP : Z;
  BUTTON_TERTIARY : Z;
  StreamInfo_new : JSValue -> StreamInfo.t;
  JSON_parse : string -> option JSValue
}.

Definition MESSAGE_TYPE_TEXT : string := "text".
Definition MESSAGE_TYPE_STREAM_INFO : string := "stream_info".
Definition DEFAULT_FPF : float := 1.

(** ** [DeviceScreen.buildMotionEvent] *)

Section BuildMotionEvent.

Context `{Imports}.

(** [BUTTONS_MAP[b]]: [None] is the [undefined] read of a key the table
    does not have. *)
Definition BUTTONS_MAP (b : Z) : option Z :=
  match b with
  | 0%Z => Some 17%Z
  | 1%Z => Some BUTTON_TERTIARY
  | 2%Z => Some 26%Z
  | _ => None
  end.

(** [EVENT_ACTION_MAP[type]] for the type of a DOM event. *)
Definition EVENT_ACTION_MAP (type : string) : option Z :=
  if String.eqb type "mousedown" then Some ACTION_DOWN
  else if String.eqb type "mousemove" then Some ACTION_MOVE
  else if String.eqb type "mouseup" then Some ACTION_UP
  else None.

(** The local constants of [buildMotionEvent], each as a function of
    the values it is computed from. *)
Definition eps : float := 1e5.
Definition ratio_of (width height : float) : float := width / height.
Definition shouldBe_of (ratio : float) : float := Math_round (eps * ratio).
Definition haveNow_of (clientWidth clientHeight : float) : float :=
  Math_round (eps * clientWidth / clientHeight).
Definition realHeight_of (clientWidth ratio : float) : float :=
  Math_ceil (clientWidth / ratio).
Definition top_of (clientHeight realHeight : float) : float :=
  (clientHeight - realHeight) / 2.
Definition realWidth_of (clientHeight ratio : float) : float :=
  Math_ceil (clientHeight * ratio).
Definition left_of (clientWidth realWidth : float) : float :=
  (clientWidth - realWidth) / 2.

(** The values of the mutable locals [touchX], [touchY], [clientWidth]
    and [clientHeight] when control reaches the final scaling. *)
Record Locals : Type := mkLocals {
  l_touchX : float;
  l_touchY : float;
  l_clientWidth : float;
  l_clientHeight : float
}.

(** The letterbox branches: [None] is the early [return null]. *)
Definition letterbox (width height : float) (target : HTMLElement)
    (touchX touchY : float) : option Locals :=
  let clientWidth := clientWidth target in
  let clientHeight := clientHeight target in
  let ratio := ratio_of width height in
  let shouldBe := shouldBe_of ratio in
  let haveNow := haveNow_of clientWidth clientHeight in
  if shouldBe >? haveNow then
    let realHeight := realHeight_of clientWidth ratio in
    let top := top_of clientHeight realHeight in
    if (touchY <? top) || (touchY >? top + realHeight) then None
    else Some (mkLocals touchX (touchY - top) clientWidth realHeight)
  else if shouldBe <? haveNow then
    let realWidth := realWidth_of clientHeight ratio in
    let left := left_of clientWidth realWidth in
    if (touchX <? left) || (touchX >? left + realWidth) then None
    else Some (mkLocals (touchX - left) touchY realWidth clientHeight)
  else Some (mkLocals touchX touchY clientWidth clientHeight).

Definition buildMotionEvent (e : MouseEvent) (streamInfo : option StreamInfo.t)
    : option MotionControlEvent :=
  match EVENT_ACTION_MAP (type e), streamInfo with
  | Some action, Some streamInfo =>
      let width := StreamInfo.width streamInfo in
      let height := StreamInfo.height streamInfo in
      let target := target e in
      let touchX := clientX e - offsetLeft target in
      let touchY := clientY e - offsetTop target in
      match letterbox width height target touchX touchY with
      | None => None
      | Some l =>
          let x := l_touchX l * width / l_clientWidth l in
          let y := l_touchY l * height / l_clientHeight l in
          let position := Position.mk (Point.mk x y) (Size.mk width height) in
          Some (mkMotionControlEvent action (BUTTONS_MAP (button e)) position)
      end
  | _, _ => None
  end.

(** The letterbox padding of the spec's geometry mapper, for a pointer
    at [(px, py)] relative to the viewport: above or below the picture
    when the stream is relatively wider than the viewport, left or
    right of it when the stream is relatively narrower. *)
Definition in_padding (viewport stream : Size.t) (px py : float) : bool :=
  let ratio := ratio_of (Size.width stream) (Size.height stream) in
  let shouldBe := shouldBe_of ratio in
  let haveNow := haveNow_of (Size.width viewport) (Size.height viewport) in
  if shouldBe >? haveNow then
    let realHeight := realHeight_of (Size.width viewport) ratio in
    let top := top_of (Size.height viewport) realHeight in
    (py <? top) || (py >? top + realHeight)
  else if shouldBe <? haveNow then
    let realWidth := realWidth_of (Size.height viewport) ratio in
    let left := left_of (Size.width viewport) realWidth in
    (px <? left) || (px >? left + realWidth)
  else false.

Definition viewport_of (target : HTMLElement) : Size.t :=
  Size.mk (clientWidth target) (clientHeight target).
Definition stream_size (streamInfo : StreamInfo.t) : Size.t :=
  Size.mk (StreamInfo.width streamInfo) (StreamInfo.height streamInfo).
Definition pointerX (e : MouseEvent) : float := clientX e - offsetLeft (target e).
Definition pointerY (e : MouseEvent) : float := clientY e - offsetTop (target e).

End BuildMotionEvent.

(** ** The object, its collaborators and its handlers *)

(** [WebSocket.readyState]. *)
Inductive ReadyState : Type := CONNECTING | OPEN | CLOSING | CLOSED.

Definition ReadyState_eqb (a b : ReadyState) : bool :=
  match a, b with
  | CONNECTING, CONNECTING | OPEN, OPEN | CLOSING, CLOSING | CLOSED, CLOSED => true
  | _, _ => false
  end.

(** A [VideoConverter] object is known by the rank of its allocation:
    two handles are equal exactly when they are the same object. *)
Definition VideoConverter : Type := nat.

(** A registered [DeviceScreenErrorListener], likewise known by name. *)
Definition Listener : Type := nat.

(** The argument of [onError]: a DOM event or a string. *)
Inductive ErrorArg : Type :=
| ErrorEvent (id : nat)
| ErrorString (s : string).

(** The fields of a [DeviceScreen], the ready state of its socket, the
    variable [down] that the closures of [init] share, and the number of
    decoders constructed so far.  [down] is an integer-valued number; it
    is kept as an integer here (binary64 counts exactly up to 2^53). *)
Record DeviceScreen : Type := mkDeviceScreen {
  errorListener : option Listener;
  streamInfo : option StreamInfo.t;
  readyState : ReadyState;
  converter : option VideoConverter;
  tag : nat;
  down : Z;
  allocated : nat
}.

Definition set_errorListener (v : option Listener) (this : DeviceScreen) :=
  mkDeviceScreen v (streamInfo this) (readyState this) (converter this)
                 (tag this) (down this) (allocated this).
Definition set_streamInfo (v : option StreamInfo.t) (this : DeviceScreen) :=
  mkDeviceScreen (errorListener this) v (readyState this) (converter this)
                 (tag this) (down this) (allocated this).
Definition set_readyState (v : ReadyState) (this : DeviceScreen) :=
  mkDeviceScreen (errorListener this) (streamInfo this) v (converter this)
                 (tag this) (down this) (allocated this).
Definition set_converter (v : option VideoConverter) (this : DeviceScreen) :=
  mkDeviceScreen (errorListener this) (streamInfo this) (readyState this) v
                 (tag this) (down this) (allocated this).
Definition set_down (v : Z) (this : DeviceScreen) :=
  mkDeviceScreen (errorListener this) (streamInfo this) (readyState this)
                 (converter this) (tag this) v (allocated this).
Definition set_allocated (v : nat) (this : DeviceScreen) :=
  mkDeviceScreen (errorListener this) (streamInfo this) (readyState this)
                 (converter this) (tag this) (down this) v.

(** What [console.log] is given. *)
Inductive Logged : Type :=
| log_undefined
| log_value (v : JSValue)
| log_data (d : MessageData).

(** The calls a handler makes on its collaborators, in the order it makes
    them.  [ws_send ev] is the call [ws.send(ev.toBuffer())]: the encoding
    is in [ControlEvent.ts], so the trace keeps the event that is encoded. *)
Inductive Call : Type :=
| ws_send (event : ControlEvent)
| ws_close
| console_log (arg : Logged)
| console_error (message : string)
| VideoConverter_new (c : VideoConverter) (tag : nat) (fps fpf : float)
| appendRawData (c : VideoConverter) (data : list Z)
| play (c : VideoConverter)
| pause (c : VideoConverter)
| OnError (l : Listener) (ev : ErrorArg)
| preventDefault
| stopPropagation.

Arguments VideoConverter_new (c tag)%_nat (fps fpf)%_float.
Arguments appendRawData c%_nat data%_list.
Arguments play c%_nat.
Arguments pause c%_nat.

Inductive Exception : Type := TypeError | InvalidStateError.

Inductive Completion (A : Type) : Type :=
| Normal (a : A)
| Throw (error : Exception).
Arguments Normal {A} a.
Arguments Throw {A} error.

(** One run of a piece of handler code: how it completed, the state it
    left and the calls it made.  A handler that throws keeps the
    assignments and the calls made before the throw. *)
Record Run (A : Type) : Type := mkRun {
  completion : Completion A;
  final : DeviceScreen;
  calls : list Call
}.
Arguments mkRun {A} completion final calls.
Arguments completion {A} r.
Arguments final {A} r.
Arguments calls {A} r.

Definition Handler (A : Type) : Type := DeviceScreen -> Run A.

Definition ret {A} (a : A) : Handler A := fun this => mkRun (Normal a) this [].

Definition bind {A B} (m : Handler A) (k : A -> Handler B) : Handler B :=
  fun this =>
    match m this with
    | mkRun (Normal a) next cs =>
        match k a next with
        | mkRun c last cs' => mkRun c last (cs ++ cs')
        end
    | mkRun (Throw error) next cs => mkRun (Throw error) next cs
    end.

Definition get : Handler DeviceScreen := fun this => mkRun (Normal this) this [].
Definition modify (f : DeviceScreen -> DeviceScreen) : Handler unit :=
  fun this => mkRun (Normal tt) (f this) [].
Definition call (c : Call) : Handler unit := fun this => mkRun (Normal tt) this [c].
Definition throw {A} (error : Exception) : Handler A :=
  fun this => mkRun (Throw error) this [].

Declare Scope handler_scope.
Delimit Scope handler_scope with handler.
Notation "x <- m ;; k" := (bind m (fun x => k))
  (at level 61, m at next level, right associativity) : handler_scope.
Notation "m ;; k" := (bind m (fun _ => k))
  (at level 61, right associativity) : handler_scope.
Local Open Scope handler_scope.

(** [ws.send(data)]: the call throws while the socket is connecting; a
    closing or closed socket drops the data. *)
Definition WebSocket_send (event : ControlEvent) : Handler unit :=
  call (ws_send event) ;;
  this <- get ;;
  match readyState this with
  | CONNECTING => throw InvalidStateError
  | _ => ret tt
  end.

(** [ws.close()]: a socket that is not closed yet starts closing. *)
Definition WebSocket_close : Handler unit :=
  call ws_close ;;
  modify (fun this =>
    match readyState this with
    | CONNECTING | OPEN => set_readyState CLOSING this
    | _ => this
    end).

(** [new VideoConverter(tag, fps, fpf)]: a fresh object. *)
Definition VideoConverter_construct (tag : nat) (fps fpf : float) : Handler VideoConverter :=
  this <- get ;;
  let c := allocated this in
  modify (set_allocated (S c)) ;;
  call (VideoConverter_new c tag fps fpf) ;;
  ret c.

Section Handlers.

Context `{Imports}.

Definition haveConnection : Handler bool :=
  this <- get ;;
  ret (ReadyState_eqb (readyState this) OPEN).

(** [onError], installed on the socket and on the video element.  The
    listener is foreign code, of which only the call is recorded. *)
Definition onError (e : ErrorArg) : Handler unit :=
  this <- get ;;
  match errorListener this with
  | Some l => call (OnError l e)
  | None => ret tt
  end ;;
  this <- get ;;
  if ReadyState_eqb (readyState this) CLOSED then call (console_error "WS closed")
  else ret tt.

(** [data.type === t] for the parsed [data]. *)
Definition type_is (data : JSValue) (t : string) : bool :=
  match get_property data "type" with
  | Some (JString s) => String.eqb s t
  | _ => false
  end.

(** [ws.onmessage].  [JSON.parse] is also given a binary payload that
    arrives while there is no decoder.  In the [catch] clause [e] is the
    caught error, whose [data] is [undefined]; the read [data.type]
    throws when the payload is the JSON text [null]. *)
Definition onmessage (data : MessageData) : Handler unit :=
  this <- get ;;
  let converter := converter this in
  let streamInfo := streamInfo this in
  match data, converter with
  | ArrayBuffer bytes, Some converter => call (appendRawData converter bytes)
  | _, _ =>
      match JSON_parse (ToString data) with
      | None => call (console_log log_undefined)
      | Some JNull => throw TypeError
      | Some parsed =>
          if type_is parsed MESSAGE_TYPE_STREAM_INFO then
            let newInfo := StreamInfo_new parsed in
            match converter, streamInfo with
            | Some converter, Some streamInfo =>
                if negb (StreamInfo.equals streamInfo newInfo) then
                  call (appendRawData converter []) ;;
                  call (pause converter)
                else ret tt
            | _, _ => ret tt
            end ;;
            modify (set_streamInfo (Some newInfo)) ;;
            c <- VideoConverter_construct (tag this) (StreamInfo.frameRate newInfo) DEFAULT_FPF ;;
            modify (set_converter (Some c)) ;;
            call (play c)
          else if type_is parsed MESSAGE_TYPE_TEXT then
            call (console_log
                    match get_property parsed "message" with
                    | Some v => log_value v
                    | None => log_undefined
                    end)
          else call (console_log (log_data data))
      end
  end.

(** [tag.oncontextmenu]. *)
Definition oncontextmenu : Handler bool :=
  call preventDefault ;;
  ret false.

(** [onMouseEvent]; [None] is the value of the bare [return]. *)
Definition onMouseEvent (e : MouseEvent) : Handler (option bool) :=
  this <- get ;;
  connected <- haveConnection ;;
  if Nat.eqb (node (target e)) (tag this) && connected then
    match streamInfo this with
    | None => ret None
    | Some _ =>
        match buildMotionEvent e (streamInfo this) with
        | Some event => WebSocket_send (Motion event)
        | None => ret tt
        end ;;
        call preventDefault ;;
        call stopPropagation ;;
        ret (Some false)
    end
  else ret (Some true).

Definition onmousedown (e : MouseEvent) : Handler unit :=
  modify (fun this => set_down (down this + 1) this) ;;
  onMouseEvent e ;;
  ret tt.

Definition onmouseup (e : MouseEvent) : Handler unit :=
  modify (fun this => set_down (down this - 1) this) ;;
  onMouseEvent e ;;
  ret tt.

Definition onmousemove (e : MouseEvent) : Handler unit :=
  this <- get ;;
  if (0 <? down this)%Z then onMouseEvent e ;; ret tt
  else ret tt.

Definition getStreamInfo : Handler (option StreamInfo.t) :=
  this <- get ;;
  ret (streamInfo this).

Definition setStreamInfo (info : StreamInfo.t) : Handler unit :=
  modify (set_streamInfo (Some info)).

Definition sendEvent (event : ControlEvent) : Handler unit :=
  connected <- haveConnection ;;
  if connected then WebSocket_send event else ret tt.

Definition setErrorListener (listener : Listener) : Handler unit :=
  modify (set_errorListener (Some listener)).

Definition stop : Handler unit :=
  connected <- haveConnection ;;
  (if connected then WebSocket_close else ret tt) ;;
  this <- get ;;
  match converter this with
  | Some converter => call (pause converter)
  | None => ret tt
  end.

(** The state the constructor leaves: a socket that is connecting, no
    stream, no decoder, [down = 0]. *)
Definition DeviceScreen_new (tag : nat) : DeviceScreen :=
  mkDeviceScreen None None CONNECTING None tag 0%Z 0.

(** What can happen to the object once constructed: the socket opens
    or closes, one of the installed handlers is dispatched, or a public
    method is called. *)
Inductive Event : Type :=
| socket_opened
| socket_closed
| ws_onerror (e : ErrorArg)
| ws_onmessage (data : MessageData)
| tag_onerror (e : ErrorArg)
| tag_oncontextmenu
| body_onmousedown (e : MouseEvent)
| body_onmouseup (e : MouseEvent)
| body_onmousemove (e : MouseEvent)
| call_getStreamInfo
| call_setStreamInfo (info : StreamInfo.t)
| call_sendEvent (event : ControlEvent)
| call_setErrorListener (listener : Listener)
| call_stop.

Definition dispatch (ev : Event) : Handler unit :=
  match ev with
  | socket_opened =>
      modify (fun this =>
        match readyState this with
        | CONNECTING => set_readyState OPEN this
        | _ => this
        end)
  | socket_closed => modify (set_readyState CLOSED)
  | ws_onerror e => onError e
  | ws_onmessage data => onmessage data
  | tag_onerror e => onError e
  | tag_oncontextmenu => oncontextmenu ;; ret tt
  | body_onmousedown e => onmousedown e
  | body_onmouseup e => onmouseup e
  | body_onmousemove e => onmousemove e
  | call_getStreamInfo => getStreamInfo ;; ret tt
  | call_setStreamInfo info => setStreamInfo info
  | call_sendEvent event => sendEvent event
  | call_setErrorListener listener => setErrorListener listener
  | call_stop => stop
  end.

(** The events of a list, dispatched in order; an exception leaves a
    handler and the next event finds the state the handler left. *)
Fixpoint run (evs : list Event) (this : DeviceScreen) : DeviceScreen * list Call :=
  match evs with
  | [] => (this, [])
  | ev :: rest =>
      let r := dispatch ev this in
      let (last, cs) := run rest (final r) in
      (last, calls r ++ cs)
  end.

Definition state_after (evs : list Event) (tag : nat) : DeviceScreen :=
  fst (run evs (DeviceScreen_new tag)).

Inductive Reachable : DeviceScreen -> Prop :=
| Reachable_new : forall tag, Reachable (DeviceScreen_new tag)
| Reachable_step : forall this ev,
    Reachable this -> Reachable (final (dispatch ev this)).

End Handlers.

(** ** Pointer sequences *)

(** [no_release_at_zero n evs]: along [evs], started with the counter at
    [n], no [mouseup] is dispatched while the counter is zero or less. *)
Fixpoint no_release_at_zero (n : Z) (evs : list Event) : bool :=
  match evs with
  | [] => true
  | body_onmousedown _ :: rest => no_release_at_zero (n + 1) rest
  | body_onmouseup _ :: rest => (0 <? n)%Z && no_release_at_zero (n - 1) rest
  | _ :: rest => no_release_at_zero n rest
  end.

(** What an event adds to the counter. *)
Definition down_change (ev : Event) : Z :=
  match ev with
  | body_onmousedown _ => 1
  | body_onmouseup _ => -1
  | _ => 0
  end.

(** The socket calls of a trace. *)
Definition is_ws_send (c : Call) : bool :=
  match c with
  | ws_send _ => true
  | _ => false
  end.

(** The decoder of an object is one that was constructed, and it comes
    with its stream metadata. *)
Definition decoder_wf (this : DeviceScreen) : Prop :=
  forall c, converter this = Some c ->
            c < allocated this /\ streamInfo this <> None.

(** The shapes of a step: what one event can do to the object. *)
Inductive Step (this : DeviceScreen) : DeviceScreen -> Prop :=
| Step_none : Step this this
| Step_down : forall n, Step this (set_down n this)
| Step_readyState : forall rs, Step this (set_readyState rs this)
| Step_errorListener : forall l, Step this (set_errorListener l this)
| Step_streamInfo : forall info, Step this (set_streamInfo (Some info) this)
| Step_decoder : forall info,
    Step this (set_converter (Some (allocated this))
                 (set_allocated (S (allocated this))
                    (set_streamInfo (Some info) this))).

(** ** Traces *)


(** What the events of a list add to the counter, together. *)
Fixpoint down_total (evs : list Event) : Z :=
  match evs with
  | [] => 0
  | ev :: rest => down_change ev + down_total rest
  end.

(** The socket has been closed or is closing. *)
Definition shut (rs : ReadyState) : bool :=
  match rs with
  | CLOSING | CLOSED => true
  | _ => false
  end.

(** The current decoder is the last one constructed. *)
Definition decoder_is_latest (this : DeviceScreen) : Prop :=
  match converter this with
  | Some c => allocated this = S c
  | None => allocated this = 0%nat
  end.

(** ** An instance of the imports, for the closed examples *)

Module Android.

(** The double quote character, to write JSON texts. *)
Definition dq : string := String (Ascii.ascii_of_nat 34) EmptyString.

Definition member_text (name value : string) : string :=
  (dq ++ name ++ dq ++ ":" ++ value)%string.

(** The text of a stream-metadata message, such as
    [{"type":"stream_info","width":1920,"height":1080,"frameRate":60}]. *)
Definition stream_info_text (width height frameRate : string) : string :=
  ("{" ++ member_text "type" (dq ++ "stream_info" ++ dq)
       ++ "," ++ member_text "width" width
       ++ "," ++ member_text "height" height
       ++ "," ++ member_text "frameRate" frameRate ++ "}")%string.

Definition stream_info_value (width height frameRate : float) : JSValue :=
  JObject [("type", JString "stream_info"); ("width", JNumber width);
           ("height", JNumber height); ("frameRate", JNumber frameRate)]%string.

Definition text_1080p : string := stream_info_text "1920" "1080" "60".
Definition text_720p : string := stream_info_text "1280" "720" "60".

(** [JSON.parse] on the texts of the examples: the two messages above
    and the text [null]; the other texts of the examples are not JSON. *)
Definition parse (s : string) : option JSValue :=
  if String.eqb s text_1080p then Some (stream_info_value 1920 1080 60)
  else if String.eqb s text_720p then Some (stream_info_value 1280 720 60)
  else if String.eqb s "null" then Some JNull
  else None.

Definition number_member (data : JSValue) (name : string) : float :=
  match get_property data name with
  | Some (JNumber n) => n
  | _ => nan
  end.

(** A constructor that copies the three numbers of the message. *)
Definition new_StreamInfo (data : JSValue) : StreamInfo.t :=
  StreamInfo.mk (number_member data "width") (number_member data "height")
                (number_member data "frameRate") "".

(** The constants are those of [android.view.MotionEvent]. *)
Definition imports : Imports := {|
  ACTION_DOWN := 0;
  ACTION_MOVE := 2;
  ACTION_UP := 1;
  BUTTON_TERTIARY := 4;
  StreamInfo_new := new_StreamInfo;
  JSON_parse := parse
|}.

Definition info_1080p : StreamInfo.t := StreamInfo.mk 1920 1080 60 "".

(** A video element of 400 by 300 pixels at the origin of the page. *)
Definition video : HTMLElement := mkHTMLElement 7 400 300 0 0.

Definition mouse (type : string) (button : Z) (x y : float) : MouseEvent :=
  mkMouseEvent type button x y video.

(** The object once its socket is open and the first metadata message
    has been handled. *)
Definition streaming : DeviceScreen :=
  @state_after imports [socket_opened; ws_onmessage (Text text_1080p)] 7.

End Android.

(** ** A second instance, with a diagnostic message *)

Module Diagnostics.

(** The text [{"type":"text","message":"hello"}]. *)
Definition text_hello : string :=
  ("{" ++ Android.member_text "type" (Android.dq ++ "text" ++ Android.dq)
       ++ "," ++ Android.member_text "message"
                   (Android.dq ++ "hello" ++ Android.dq) ++ "}")%string.

Definition value_hello : JSValue :=
  JObject [("type", JString "text"); ("message", JString "hello")]%string.

(** [JSON.parse] on the texts of [Android.parse] and on the one above. *)
Definition parse (s : string) : option JSValue :=
  if String.eqb s text_hello then Some value_hello else Android.parse s.

Definition imports : Imports := {|
  ACTION_DOWN := 0;
  ACTION_MOVE := 2;
  ACTION_UP := 1;
  BUTTON_TERTIARY := 4;
  StreamInfo_new := Android.new_StreamInfo;
  JSON_parse := parse
|}.

(** A video element of 960 by 540 pixels, of the shape of a 1920x1080
    stream. *)
Definition video_16_9 : HTMLElement := mkHTMLElement 7 960 540 0 0.

(** Another element of the page. *)
Definition sidebar : HTMLElement := mkHTMLElement 3 100 540 0 0.

End Diagnostics.

(** * Properties *)

(** ** The number functions on the cases that tell them apart *)

(** [Math.round] sends a tie towards +Infinity and keeps the sign of a
    result that is zero. *)
Example Math_round_ties :
  map Math_round [2.5; -2.5; 0.5; -0.5; 1.75; -1.75; 177777.75; infinity; 0]
  = [3; -2; 1; -0; 2; -2; 177778; infinity; 0].
Proof. reflexivity. Qed.

Example Math_round_nan : Math_round nan = nan.
Proof. reflexivity. Qed.

(** [Math.ceil] leaves an integral number alone and rounds the others up. *)
Example Math_ceil_values :
  map Math_ceil [225; 224.25; -224.25; 0.25; -0.25; -0; 4503599627370495.5; neg_infinity]
  = [225; 225; -224; 1; -0; -0; 4503599627370496; neg_infinity].
Proof. reflexivity. Qed.

(** A session from the first metadata message to a drag on the video
    element: the calls the object makes, in order. *)
Example session_trace :
  snd (@run Android.imports
         [socket_opened;
          ws_onmessage (Text Android.text_1080p);
          ws_onmessage (ArrayBuffer [0; 0; 0; 1; 103]%Z);
          body_onmousemove (Android.mouse "mousemove" 0 200 150);
          body_onmousedown (Android.mouse "mousedown" 0 200 150);
          body_onmousemove (Android.mouse "mousemove" 0 200 10);
          body_onmouseup (Android.mouse "mouseup" 0 100 75);
          call_stop]
         (DeviceScreen_new 7%nat))
  = [VideoConverter_new 0 7 60 1; play 0;
     appendRawData 0 [0; 0; 0; 1; 103]%Z;
     ws_send (Motion (mkMotionControlEvent 0 (Some 17%Z)
                        (Position.mk (Point.mk 960 540) (Size.mk 1920 1080))));
     preventDefault; stopPropagation;
     preventDefault; stopPropagation;
     ws_send (Motion (mkMotionControlEvent 1 (Some 17%Z)
                        (Position.mk (Point.mk 480 180) (Size.mk 1920 1080))));
     preventDefault; stopPropagation;
     ws_close; pause 0].
Proof. reflexivity. Qed.

(** ** Comparison of numbers *)

Lemma SFcompare_antisym (f1 f2 : SpecFloat.spec_float) :
  SpecFloat.SFcompare f2 f1 = option_map CompOpp (SpecFloat.SFcompare f1 f2).
Proof.
  destruct f1 as [s1|s1| |s1 m1 e1], f2 as [s2|s2| |s2 m2 e2];
    try destruct s1; try destruct s2; simpl; try reflexivity;
    rewrite (Z.compare_antisym e1 e2);
    destruct (e1 ?= e2)%Z; simpl; try reflexivity;
    change (Pos.compare_cont Eq m2 m1) with (Pos.compare m2 m1);
    change (Pos.compare_cont Eq m1 m2) with (Pos.compare m1 m2);
    rewrite (Pos.compare_antisym m1 m2); destruct (m1 ?= m2)%positive; reflexivity.
Qed.

(** [a < b] and [b < a] never hold together. *)
Lemma ltb_asym (a b : float) : (a <? b) = true -> (b <? a) = false.
Proof.
  rewrite !ltb_spec. unfold SpecFloat.SFltb.
  rewrite (SFcompare_antisym (Prim2SF a) (Prim2SF b)).
  destruct (SpecFloat.SFcompare (Prim2SF a) (Prim2SF b)) as [[ | | ]|];
    simpl; congruence.
Qed.

(** ** The coordinate mapping *)

Section Geometry.

Context `{Imports}.

(** The early [return null] of the letterbox branches is taken exactly
    on the padding. *)
Lemma letterbox_padding (si : StreamInfo.t) (e : MouseEvent) :
  letterbox (StreamInfo.width si) (StreamInfo.height si) (target e)
            (pointerX e) (pointerY e) = None
  <-> in_padding (viewport_of (target e)) (stream_size si)
                 (pointerX e) (pointerY e) = true.
Proof.
  unfold letterbox, in_padding, viewport_of, stream_size; simpl.
  set (ratio := ratio_of _ _).
  destruct (shouldBe_of ratio >? haveNow_of _ _).
  - destruct ((pointerY e <? _) || _); split; congruence.
  - destruct (shouldBe_of ratio <? haveNow_of _ _).
    + destruct ((pointerX e <? _) || _); split; congruence.
    + split; congruence.
Qed.

Lemma buildMotionEvent_padding (si : StreamInfo.t) (e : MouseEvent) :
  in_padding (viewport_of (target e)) (stream_size si)
             (pointerX e) (pointerY e) = true ->
  buildMotionEvent e (Some si) = None.
Proof.
  intros Hpad. apply letterbox_padding in Hpad.
  unfold buildMotionEvent. destruct (EVENT_ACTION_MAP (type e)); [|reflexivity].
  fold (pointerX e) (pointerY e). now rewrite Hpad.
Qed.

(** Outside the padding an event of a known type is translated, with
    whatever the button table holds for its button. *)
Lemma buildMotionEvent_content (si : StreamInfo.t) (e : MouseEvent) (a : Z) :
  EVENT_ACTION_MAP (type e) = Some a ->
  in_padding (viewport_of (target e)) (stream_size si)
             (pointerX e) (pointerY e) = false ->
  exists p : Point.t,
    buildMotionEvent e (Some si)
    = Some (mkMotionControlEvent a (BUTTONS_MAP (button e))
              (Position.mk p (stream_size si))).
Proof.
  intros Ha Hpad. unfold buildMotionEvent. rewrite Ha.
  fold (pointerX e) (pointerY e).
  destruct (letterbox _ _ _ _ _) as [l|] eqn:Hl.
  - eexists. reflexivity.
  - apply letterbox_padding in Hl. congruence.
Qed.


(** C5. The worked example: a 400x300 viewport showing a 1920x1080
    stream.  The rounded ratios are 177778 and 133333, so the picture is
    letterboxed above and below; its height is 225 and it starts at
    37.5.  A pointer at (200, 10) is rejected; a pointer at (200, 150)
    of an event of a known type is mapped to the device point
    (960, 540). *)
Theorem worked_example_400x300_1080p
    (n : nat) (ty : string) (b : Z) (fps : float) (codec : string) :
  let si := StreamInfo.mk 1920 1080 fps codec in
  let viewport := mkHTMLElement n 400 300 0 0 in
  shouldBe_of (ratio_of 1920 1080) = 177778
  /\ haveNow_of 400 300 = 133333
  /\ (177778 >? 133333) = true
  /\ realHeight_of 400 (ratio_of 1920 1080) = 225
  /\ top_of 300 225 = 37.5
  /\ (10 <? 37.5) = true
  /\ buildMotionEvent (mkMouseEvent ty b 200 10 viewport) (Some si) = None
  /\ buildMotionEvent (mkMouseEvent ty b 200 150 viewport) (Some si)
     = match EVENT_ACTION_MAP ty with
       | Some a =>
           Some (mkMotionControlEvent a (BUTTONS_MAP b)
                   (Position.mk (Point.mk 960 540) (Size.mk 1920 1080)))
       | None => None
       end.
Proof.
  intros si viewport.
  repeat (split; [reflexivity|]).
  split; unfold buildMotionEvent; simpl;
    destruct (EVENT_ACTION_MAP ty); reflexivity.
Qed.

(** C6. A pointer in the letterbox padding is rejected: when the
    stream is relatively wider than the viewport and the pointer is
    above [top] or below [top + realHeight], and when the stream is
    relatively narrower and the pointer is left of [left] or right of
    [left + realWidth], [buildMotionEvent] returns [null]. *)
Theorem padding_is_rejected (e : MouseEvent) (si : StreamInfo.t) :
  let width := StreamInfo.width si in
  let height := StreamInfo.height si in
  let clientWidth := clientWidth (target e) in
  let clientHeight := clientHeight (target e) in
  let x := clientX e - offsetLeft (target e) in
  let y := clientY e - offsetTop (target e) in
  let ratio := ratio_of width height in
  let shouldBe := shouldBe_of ratio in
  let haveNow := haveNow_of clientWidth clientHeight in
  let realHeight := realHeight_of clientWidth ratio in
  let top := top_of clientHeight realHeight in
  let realWidth := realWidth_of clientHeight ratio in
  let left := left_of clientWidth realWidth in
  ((shouldBe >? haveNow) = true
     /\ ((y <? top) = true \/ (y >? top + realHeight) = true))
  \/ ((shouldBe <? haveNow) = true
     /\ ((x <? left) = true \/ (x >? left + realWidth) = true)) ->
  buildMotionEvent e (Some si) = None.
Proof.
  intros width height clientWidth clientHeight x y ratio shouldBe haveNow
         realHeight top realWidth left Hpad.
  apply buildMotionEvent_padding.
  unfold in_padding, viewport_of, stream_size, pointerX, pointerY; simpl.
  fold width height clientWidth clientHeight x y.
  fold ratio. fold shouldBe haveNow. 
  destruct Hpad as [[Hwide Hy] | [Hnarrow Hx]].
  - rewrite Hwide. fold realHeight. fold top.
    destruct Hy as [Hy | Hy]; rewrite Hy; auto using orb_true_r.
  - rewrite (ltb_asym _ _ Hnarrow), Hnarrow. fold realWidth. fold left.
    destruct Hx as [Hx | Hx]; rewrite Hx; auto using orb_true_r.
Qed.

End Geometry.

(** ** The session *)

Lemma ReadyState_eqb_neq (a b : ReadyState) : ReadyState_eqb a b = false <-> a <> b.
Proof. destruct a, b; simpl; split; congruence. Qed.

(** The translation of a pointer event is a black box for the session. *)
#[local] Arguments buildMotionEvent : simpl never.

(** The test a stuck piece of code waits for, and the case analysis on it. *)
Ltac innermost x :=
  lazymatch x with
  | context [match ?y with _ => _ end] => innermost y
  | _ => x
  end.

Ltac split_test :=
  match goal with
  | |- context [match ?x with _ => _ end] =>
      let y := innermost x in destruct y eqn:?; simpl
  end.

(** Unfolds the plumbing of handler code. *)
Ltac unfold_handler :=
  unfold haveConnection, WebSocket_send, WebSocket_close,
         VideoConverter_construct, bind, get, modify, call, ret, throw.

Section Session.

Context `{Imports}.

(** What the [stream_info] case does, in terms of the test that guards
    the flush. *)
Lemma onmessage_stream_info (this : DeviceScreen) (s : string) (parsed : JSValue) :
  JSON_parse s = Some parsed ->
  type_is parsed MESSAGE_TYPE_STREAM_INFO = true ->
  let newInfo := StreamInfo_new parsed in
  let fresh := allocated this in
  let flush :=
    match converter this, streamInfo this with
    | Some old, Some current =>
        if negb (StreamInfo.equals current newInfo)
        then [appendRawData old []; pause old] else []
    | _, _ => []
    end in
  onmessage (Text s) this
  = mkRun (Normal tt)
      (set_converter (Some fresh)
         (set_allocated (S fresh) (set_streamInfo (Some newInfo) this)))
      (flush ++ [VideoConverter_new fresh (tag this)
                   (StreamInfo.frameRate newInfo) DEFAULT_FPF;
                 play fresh]).
Proof.
  intros Hparse Htype newInfo fresh flush.
  destruct parsed as [ |b|n|t|items|members]; try discriminate Htype.
  subst flush newInfo fresh.
  unfold onmessage, bind, get; simpl.
  destruct (converter this) as [old|]; rewrite Hparse, Htype;
    [destruct (streamInfo this) as [current|];
     [destruct (StreamInfo.equals current _)|]|];
    reflexivity.
Qed.

(** The JSON text [null] parses, and the read of [data.type] throws: the
    handler is left by the [TypeError], with nothing changed. *)
Lemma null_message_throws (this : DeviceScreen) (s : string) :
  JSON_parse s = Some JNull ->
  onmessage (Text s) this = mkRun (Throw TypeError) this [].
Proof.
  intros Hparse. unfold onmessage, bind, get; simpl.
  destruct (converter this); rewrite Hparse; reflexivity.
Qed.

(** A binary payload that arrives while there is no decoder goes through
    [JSON.parse] as the text [[object ArrayBuffer]], and is discarded
    like any text that is not JSON. *)
Lemma early_binary_discarded (this : DeviceScreen) (bytes : list Z) :
  converter this = None ->
  JSON_parse "[object ArrayBuffer]" = None ->
  onmessage (ArrayBuffer bytes) this
  = mkRun (Normal tt) this [console_log log_undefined].
Proof.
  intros Hnone Hparse. unfold onmessage, bind, get; simpl.
  rewrite Hnone, Hparse. reflexivity.
Qed.

(** C9. A text payload that [JSON.parse] rejects is discarded: the
    handler completes normally, the object is left as it was (same
    stream metadata, decoder and socket state), and the only call made
    is the [console.log] of the [catch] clause. *)
Theorem malformed_message_discarded (this : DeviceScreen) (s : string) :
  JSON_parse s = None ->
  onmessage (Text s) this = mkRun (Normal tt) this [console_log log_undefined].
Proof.
  intros Hparse. unfold onmessage, bind, get; simpl.
  destruct (converter this); rewrite Hparse; reflexivity.
Qed.

(** [onMouseEvent] in one piece: it never changes the object, and it
    calls the socket only for an event on the video element, with the
    socket open and the stream negotiated. *)
Lemma onMouseEvent_run (e : MouseEvent) (this : DeviceScreen) :
  onMouseEvent e this
  = if Nat.eqb (node (target e)) (tag this) && ReadyState_eqb (readyState this) OPEN
    then match streamInfo this with
         | None => mkRun (Normal None) this []
         | Some _ =>
             mkRun (Normal (Some false)) this
               (match buildMotionEvent e (streamInfo this) with
                | Some event => [ws_send (Motion event)]
                | None => []
                end ++ [preventDefault; stopPropagation])
         end
    else mkRun (Normal (Some true)) this [].
Proof.
  unfold onMouseEvent; unfold_handler; simpl.
  destruct (Nat.eqb _ _); simpl; [|reflexivity].
  destruct (readyState this) eqn:Hrs; simpl; try reflexivity.
  destruct (streamInfo this) as [si|]; [|reflexivity].
  destruct (buildMotionEvent e (Some si)); simpl; rewrite ?Hrs; reflexivity.
Qed.

(** Runs the handler of an event, case by case. *)
Ltac run_dispatch :=
  unfold dispatch;
  unfold onError, onmessage, oncontextmenu, onmousedown, onmouseup,
         onmousemove, getStreamInfo, setStreamInfo, sendEvent,
         setErrorListener, stop;
  unfold_handler;
  repeat (simpl; first [rewrite onMouseEvent_run | split_test]);
  simpl.

Lemma dispatch_Step (ev : Event) (this : DeviceScreen) :
  Step this (final (dispatch ev this)).
Proof.
  destruct ev; run_dispatch; try (constructor; fail).
  all: try match goal with
           | |- Step ?this ?this' => destruct this; apply Step_none
           end.
Qed.

Lemma Step_decoder_wf (this next : DeviceScreen) :
  Step this next -> decoder_wf this -> decoder_wf next.
Proof.
  unfold decoder_wf.
  intros [ |n|rs|l|info|info] Hwf c Hc; simpl in *;
    try (destruct (Hwf c Hc); split; [assumption | discriminate || assumption]).
  injection Hc as <-. split; [lia | discriminate].
Qed.

Lemma dispatch_decoder_wf (ev : Event) (this : DeviceScreen) :
  decoder_wf this -> decoder_wf (final (dispatch ev this)).
Proof. apply Step_decoder_wf, dispatch_Step. Qed.

Lemma Reachable_decoder_wf (this : DeviceScreen) :
  Reachable this -> decoder_wf this.
Proof.
  induction 1 as [tag | this ev _ IH].
  - intros c Hc. discriminate Hc.
  - now apply dispatch_decoder_wf.
Qed.

(** C4. When a [stream_info] message announces metadata that differ
    from the current ones while there is a decoder, the handler flushes
    the old decoder with an empty payload, then pauses it, then
    constructs the new decoder, then starts it: these are its four calls
    in this order, and the new decoder is another object than the old
    one. *)
Theorem renegotiation_flushes_and_stops_first
    (this : DeviceScreen) (s : string) (parsed : JSValue)
    (old : VideoConverter) (current : StreamInfo.t) :
  Reachable this ->
  converter this = Some old ->
  streamInfo this = Some current ->
  JSON_parse s = Some parsed ->
  type_is parsed MESSAGE_TYPE_STREAM_INFO = true ->
  StreamInfo.equals current (StreamInfo_new parsed) = false ->
  let newInfo := StreamInfo_new parsed in
  let r := onmessage (Text s) this in
  exists fresh : VideoConverter,
    fresh <> old
    /\ completion r = Normal tt
    /\ calls r = [appendRawData old []; pause old;
                  VideoConverter_new fresh (tag this)
                    (StreamInfo.frameRate newInfo) DEFAULT_FPF;
                  play fresh]
    /\ converter (final r) = Some fresh
    /\ streamInfo (final r) = Some newInfo.
Proof.
  intros Hreach Hold Hcur Hparse Htype Hneq newInfo r.
  exists (allocated this). subst r newInfo.
  rewrite (onmessage_stream_info this s parsed Hparse Htype).
  rewrite Hold, Hcur, Hneq. simpl.
  destruct (Reachable_decoder_wf this Hreach old Hold) as [Hlt _].
  repeat split; try reflexivity. lia.
Qed.

(** The same message with metadata equal to the current ones: the old
    decoder is neither flushed nor paused, and a new decoder is
    constructed and started all the same, and replaces it. *)
Lemma equal_metadata_restart
    (this : DeviceScreen) (s : string) (parsed : JSValue)
    (old : VideoConverter) (current : StreamInfo.t) :
  Reachable this ->
  converter this = Some old ->
  streamInfo this = Some current ->
  JSON_parse s = Some parsed ->
  type_is parsed MESSAGE_TYPE_STREAM_INFO = true ->
  StreamInfo.equals current (StreamInfo_new parsed) = true ->
  let newInfo := StreamInfo_new parsed in
  let r := onmessage (Text s) this in
  exists fresh : VideoConverter,
    fresh <> old
    /\ calls r = [VideoConverter_new fresh (tag this)
                    (StreamInfo.frameRate newInfo) DEFAULT_FPF;
                  play fresh]
    /\ converter (final r) = Some fresh.
Proof.
  intros Hreach Hold Hcur Hparse Htype Heq newInfo r.
  exists (allocated this). subst r newInfo.
  rewrite (onmessage_stream_info this s parsed Hparse Htype).
  rewrite Hold, Hcur, Heq. simpl.
  destruct (Reachable_decoder_wf this Hreach old Hold) as [Hlt _].
  repeat split; try reflexivity. lia.
Qed.

(** C2, as the code has it. In every reachable state a decoder comes
    with stream metadata: if [converter] is set then [streamInfo] is
    set. *)
Theorem decoder_implies_streamInfo (this : DeviceScreen) :
  Reachable this -> converter this <> None -> streamInfo this <> None.
Proof.
  intros Hreach Hconv.
  destruct (converter this) as [c|] eqn:Hc; [|congruence].
  exact (proj2 (Reachable_decoder_wf this Hreach c Hc)).
Qed.

Lemma run_cons (ev : Event) (rest : list Event) (this : DeviceScreen) :
  fst (run (ev :: rest) this) = fst (run rest (final (dispatch ev this))).
Proof. simpl. now destruct (run rest (final (dispatch ev this))). Qed.

Lemma Reachable_run (evs : list Event) (this : DeviceScreen) :
  Reachable this -> Reachable (fst (run evs this)).
Proof.
  revert this. induction evs as [|ev rest IH]; intros this Hreach.
  - exact Hreach.
  - rewrite run_cons. apply IH. now constructor.
Qed.

Lemma Reachable_state_after (evs : list Event) (tag : nat) :
  Reachable (state_after evs tag).
Proof. apply Reachable_run. constructor. Qed.

(** ** The drag counter *)

(** Only the two button handlers touch the counter. *)
Lemma dispatch_down (ev : Event) (this : DeviceScreen) :
  down (final (dispatch ev this)) = (down this + down_change ev)%Z.
Proof. destruct ev; run_dispatch; lia. Qed.

Lemma no_release_at_zero_cons (n : Z) (ev : Event) (rest : list Event) :
  (0 <= n)%Z ->
  no_release_at_zero n (ev :: rest) = true ->
  (0 <= n + down_change ev)%Z
  /\ no_release_at_zero (n + down_change ev) rest = true.
Proof.
  intros Hn Hok.
  destruct ev; simpl in *; rewrite ?Z.add_0_r; try (split; [lia | assumption]).
  apply andb_true_iff in Hok as [Hpos Hrest]. apply Z.ltb_lt in Hpos.
  split; [lia | exact Hrest].
Qed.

Lemma down_nonneg_run (evs : list Event) (this : DeviceScreen) :
  (0 <= down this)%Z ->
  no_release_at_zero (down this) evs = true ->
  forall k, (0 <= down (fst (run (firstn k evs) this)))%Z.
Proof.
  revert this. induction evs as [|ev rest IH]; intros this Hdown Hok k.
  - destruct k; exact Hdown.
  - destruct k as [|k]; [exact Hdown|].
    change (firstn (S k) (ev :: rest)) with (ev :: firstn k rest).
    rewrite run_cons.
    destruct (no_release_at_zero_cons _ _ _ Hdown Hok) as [Hnext Hrest].
    apply IH; rewrite dispatch_down; assumption.
Qed.

(** C3, as the code has it. The counter is not clamped: it is never
    negative along an event sequence in which no release is dispatched
    while the counter is zero, that is in the state reached after each
    prefix of such a sequence. *)
Theorem down_nonneg_when_releases_follow_presses (evs : list Event) (tag : nat) :
  no_release_at_zero 0 evs = true ->
  forall k, (0 <= down (state_after (firstn k evs) tag))%Z.
Proof.
  intros Hok k. unfold state_after.
  apply down_nonneg_run; simpl; [lia | exact Hok].
Qed.

(** ** Sending *)

Lemma BUTTONS_MAP_unknown (b : Z) :
  b <> 0%Z -> b <> 1%Z -> b <> 2%Z -> BUTTONS_MAP b = None.
Proof.
  intros H0 H1 H2.
  destruct b as [|p|p]; [congruence| |reflexivity].
  destruct p as [[q|q|]|[q|q|]|]; simpl; congruence.
Qed.

Lemma onmousemove_run (e : MouseEvent) (this : DeviceScreen) :
  onmousemove e this
  = if (0 <? down this)%Z
    then mkRun (Normal tt) this
           (if Nat.eqb (node (target e)) (tag this)
               && ReadyState_eqb (readyState this) OPEN
            then match streamInfo this with
                 | None => []
                 | Some _ =>
                     match buildMotionEvent e (streamInfo this) with
                     | Some event => [ws_send (Motion event)]
                     | None => []
                     end ++ [preventDefault; stopPropagation]
                 end
            else [])
    else mkRun (Normal tt) this [].
Proof.
  unfold onmousemove; unfold_handler; simpl.
  destruct (0 <? down this)%Z; [|reflexivity].
  rewrite onMouseEvent_run.
  destruct (_ && _); [destruct (streamInfo this)|]; simpl;
    rewrite ?app_nil_r; reflexivity.
Qed.

(** C7. A move dispatched while the counter is zero (or less) calls
    nothing and changes nothing.  The same move, on the video element
    and inside the picture, with the socket open and the stream
    negotiated, dispatched while the counter is one or more, sends the
    translated event. *)
Theorem drag_move_suppression (e : MouseEvent) (this : DeviceScreen) :
  (forall n, (n <= 0)%Z ->
     onmousemove e (set_down n this) = mkRun (Normal tt) (set_down n this) [])
  /\ (forall si n,
        type e = "mousemove"%string ->
        node (target e) = tag this ->
        readyState this = OPEN ->
        streamInfo this = Some si ->
        in_padding (viewport_of (target e)) (stream_size si)
                   (pointerX e) (pointerY e) = false ->
        (1 <= n)%Z ->
        exists p : Point.t,
          onmousemove e (set_down n this)
          = mkRun (Normal tt) (set_down n this)
              [ws_send (Motion (mkMotionControlEvent ACTION_MOVE
                                  (BUTTONS_MAP (button e))
                                  (Position.mk p (stream_size si))));
               preventDefault; stopPropagation]).
Proof.
  split.
  - intros n Hn. rewrite onmousemove_run. simpl.
    destruct (0 <? n)%Z eqn:Hpos; [apply Z.ltb_lt in Hpos; lia | reflexivity].
  - intros si n Hty Htag Hopen Hsi Hpad Hn.
    assert (Ha : EVENT_ACTION_MAP (type e) = Some ACTION_MOVE)
      by (rewrite Hty; reflexivity).
    destruct (buildMotionEvent_content si e _ Ha Hpad) as [p Hp].
    exists p. rewrite onmousemove_run. simpl.
    destruct (0 <? n)%Z eqn:Hpos; [|apply Z.ltb_ge in Hpos; lia].
    rewrite Htag, Nat.eqb_refl, Hopen, Hsi, Hp. reflexivity.
Qed.

(** C8. While the socket is not open, [sendEvent] and [onMouseEvent]
    complete normally, call nothing and leave the object as it was; and
    no event whatever makes the object call [ws.send]. *)
Theorem no_send_unless_open (this : DeviceScreen) :
  readyState this <> OPEN ->
  (forall event, sendEvent event this = mkRun (Normal tt) this [])
  /\ (forall e, onMouseEvent e this = mkRun (Normal (Some true)) this [])
  /\ (forall ev, filter is_ws_send (calls (dispatch ev this)) = []).
Proof.
  intros Hclosed. apply ReadyState_eqb_neq in Hclosed.
  split; [|split].
  - intros event. unfold sendEvent; unfold_handler; simpl.
    now rewrite Hclosed.
  - intros e. rewrite onMouseEvent_run, Hclosed, andb_false_r. reflexivity.
  - intros ev.
    destruct (readyState this) eqn:Hrs; [|discriminate Hclosed| |];
      destruct ev; run_dispatch;
      rewrite ?Hrs in *; simpl in *; rewrite ?andb_false_r in *;
      reflexivity || discriminate.
Qed.

(** C10. The button table is read without a guard: an event of a known
    type, inside the picture, whose button is none of 0, 1 and 2 is
    translated into a motion event whose button is [undefined]; and
    [onMouseEvent], for such an event on the video element with the
    socket open, sends it. *)
Theorem unknown_button_is_sent_undefined
    (e : MouseEvent) (si : StreamInfo.t) (a : Z) :
  button e <> 0%Z -> button e <> 1%Z -> button e <> 2%Z ->
  EVENT_ACTION_MAP (type e) = Some a ->
  in_padding (viewport_of (target e)) (stream_size si)
             (pointerX e) (pointerY e) = false ->
  exists p : Point.t,
    let event := mkMotionControlEvent a None (Position.mk p (stream_size si)) in
    buildMotionEvent e (Some si) = Some event
    /\ forall this,
         streamInfo this = Some si ->
         readyState this = OPEN ->
         node (target e) = tag this ->
         onMouseEvent e this
         = mkRun (Normal (Some false)) this
             [ws_send (Motion event); preventDefault; stopPropagation].
Proof.
  intros H0 H1 H2 Ha Hpad.
  destruct (buildMotionEvent_content si e a Ha Hpad) as [p Hp].
  rewrite (BUTTONS_MAP_unknown _ H0 H1 H2) in Hp.
  exists p. split; [exact Hp|].
  intros this Hsi Hopen Htag.
  rewrite onMouseEvent_run, Htag, Nat.eqb_refl, Hopen, Hsi, Hp. reflexivity.
Qed.

(** ** Further properties of the translation *)

Lemma ltb_irrefl (a : float) : (a <? a) = false.
Proof.
  destruct (a <? a) eqn:Hlt; [|reflexivity].
  now rewrite (ltb_asym a a Hlt) in Hlt.
Qed.


(** X2. An event that [buildMotionEvent] returns carries the action of
    the event type, the entry of the button table for the button, and the
    size of the stream as the size of its position. *)
Theorem buildMotionEvent_fields
    (e : MouseEvent) (si : StreamInfo.t) (ev : MotionControlEvent) :
  buildMotionEvent e (Some si) = Some ev ->
  EVENT_ACTION_MAP (type e) = Some (action ev)
  /\ buttons ev = BUTTONS_MAP (button e)
  /\ Position.screenSize (position ev) = stream_size si.
Proof.
  unfold buildMotionEvent.
  destruct (EVENT_ACTION_MAP (type e)) as [a|]; [|discriminate].
  destruct (letterbox _ _ _ _ _) as [l|]; [|discriminate].
  intros [= <-]. simpl. auto.
Qed.

(** X3. When the two rounded ratios are the same number there is no
    padding: the pointer of an event of a known type is accepted wherever
    it is, and each coordinate is scaled by the full size of the
    viewport. *)
Theorem equal_ratios_scale_linearly
    (e : MouseEvent) (si : StreamInfo.t) (a : Z) :
  let width := StreamInfo.width si in
  let height := StreamInfo.height si in
  let clientWidth := clientWidth (target e) in
  let clientHeight := clientHeight (target e) in
  EVENT_ACTION_MAP (type e) = Some a ->
  shouldBe_of (ratio_of width height) = haveNow_of clientWidth clientHeight ->
  buildMotionEvent e (Some si)
  = Some (mkMotionControlEvent a (BUTTONS_MAP (button e))
            (Position.mk
               (Point.mk (pointerX e * width / clientWidth)
                         (pointerY e * height / clientHeight))
               (Size.mk width height))).
Proof.
  intros width height clientWidth clientHeight Ha Hsame.
  unfold buildMotionEvent, letterbox. rewrite Ha.
  fold width height clientWidth clientHeight. rewrite Hsame, ltb_irrefl.
  reflexivity.
Qed.

(** ** Further properties of [onMouseEvent] *)


(** X5. An event on the video element whose pointer is in the padding
    is swallowed and not sent: with the socket open and the stream
    negotiated, [onMouseEvent] prevents the default action, stops the
    propagation, returns [false], and calls nothing else. *)
Theorem padding_event_swallowed
    (e : MouseEvent) (this : DeviceScreen) (si : StreamInfo.t) :
  node (target e) = tag this ->
  readyState this = OPEN ->
  streamInfo this = Some si ->
  in_padding (viewport_of (target e)) (stream_size si)
             (pointerX e) (pointerY e) = true ->
  onMouseEvent e this
  = mkRun (Normal (Some false)) this [preventDefault; stopPropagation].
Proof.
  intros Htag Hopen Hsi Hpad.
  rewrite onMouseEvent_run, Htag, Nat.eqb_refl, Hopen, Hsi.
  now rewrite (buildMotionEvent_padding si e Hpad).
Qed.

(** X6. Before there are stream metadata an event on the video element
    is neither sent nor swallowed: [onMouseEvent] returns [undefined]
    without a call, so the default action of the event is not
    prevented. *)
Theorem no_stream_event_passes (e : MouseEvent) (this : DeviceScreen) :
  node (target e) = tag this ->
  readyState this = OPEN ->
  streamInfo this = None ->
  onMouseEvent e this = mkRun (Normal None) this [].
Proof.
  intros Htag Hopen Hsi.
  now rewrite onMouseEvent_run, Htag, Nat.eqb_refl, Hopen, Hsi.
Qed.

(** X7. The press that arms the drag may be anywhere on the page: a
    press on another element than the video calls nothing, and the move
    over the picture that follows it is sent. *)
Theorem press_elsewhere_arms_drag
    (press move : MouseEvent) (this : DeviceScreen) (si : StreamInfo.t) :
  (0 <= down this)%Z ->
  node (target press) <> tag this ->
  type move = "mousemove"%string ->
  node (target move) = tag this ->
  readyState this = OPEN ->
  streamInfo this = Some si ->
  in_padding (viewport_of (target move)) (stream_size si)
             (pointerX move) (pointerY move) = false ->
  exists p : Point.t,
    snd (run [body_onmousedown press; body_onmousemove move] this)
    = [ws_send (Motion (mkMotionControlEvent ACTION_MOVE
                          (BUTTONS_MAP (button move))
                          (Position.mk p (stream_size si))));
       preventDefault; stopPropagation].
Proof.
  intros Hdown Hpress Hty Htag Hopen Hsi Hpad.
  assert (Ha : EVENT_ACTION_MAP (type move) = Some ACTION_MOVE)
    by (rewrite Hty; reflexivity).
  destruct (buildMotionEvent_content si move _ Ha Hpad) as [p Hp].
  exists p. apply Nat.eqb_neq in Hpress.
  simpl. unfold onmousedown; unfold_handler; simpl.
  rewrite onMouseEvent_run. simpl. rewrite Hpress. simpl.
  rewrite onmousemove_run. simpl.
  destruct (0 <? down this + 1)%Z eqn:Hpos; [|apply Z.ltb_ge in Hpos; lia].
  rewrite Htag, Nat.eqb_refl, Hopen, Hsi, Hp. reflexivity.
Qed.

(** ** Further properties of [ws.onmessage] *)

(** X8. A message whose type is neither [stream_info] nor absent on a
    [null] value changes nothing: a [text] message logs its [message]
    member ([undefined] when it has none), and a message of any other
    type, or without a type, logs the payload as it came. *)
Theorem other_messages_only_log
    (this : DeviceScreen) (s : string) (parsed : JSValue) :
  JSON_parse s = Some parsed ->
  parsed <> JNull ->
  type_is parsed MESSAGE_TYPE_STREAM_INFO = false ->
  onmessage (Text s) this
  = mkRun (Normal tt) this
      [console_log
         (if type_is parsed MESSAGE_TYPE_TEXT
          then match get_property parsed "message" with
               | Some v => log_value v
               | None => log_undefined
               end
          else log_data (Text s))].
Proof.
  intros Hparse Hnull Htype.
  unfold onmessage, bind, get; simpl.
  destruct (converter this); rewrite Hparse;
    (destruct parsed; [congruence| | | | | ]); rewrite Htype;
    destruct (type_is _ MESSAGE_TYPE_TEXT); reflexivity.
Qed.

(** X9. The first metadata message finds no decoder: the handler
    flushes and pauses nothing, constructs a decoder for the video
    element with the announced frame rate and [DEFAULT_FPF], starts it,
    and keeps it and the metadata. *)
Theorem first_metadata_starts_decoder
    (this : DeviceScreen) (s : string) (parsed : JSValue) :
  converter this = None ->
  JSON_parse s = Some parsed ->
  type_is parsed MESSAGE_TYPE_STREAM_INFO = true ->
  let newInfo := StreamInfo_new parsed in
  let r := onmessage (Text s) this in
  completion r = Normal tt
  /\ calls r = [VideoConverter_new (allocated this) (tag this)
                  (StreamInfo.frameRate newInfo) DEFAULT_FPF;
                play (allocated this)]
  /\ converter (final r) = Some (allocated this)
  /\ streamInfo (final r) = Some newInfo.
Proof.
  intros Hnone Hparse Htype newInfo r. subst r newInfo.
  rewrite (onmessage_stream_info this s parsed Hparse Htype), Hnone.
  repeat split.
Qed.

(** X10. A binary payload that follows a metadata message is given, as
    it is, to the decoder that the metadata message constructed. *)
Theorem binary_goes_to_new_decoder
    (this : DeviceScreen) (s : string) (parsed : JSValue) (bytes : list Z) :
  JSON_parse s = Some parsed ->
  type_is parsed MESSAGE_TYPE_STREAM_INFO = true ->
  let this' := final (onmessage (Text s) this) in
  onmessage (ArrayBuffer bytes) this'
  = mkRun (Normal tt) this' [appendRawData (allocated this) bytes].
Proof.
  intros Hparse Htype this'. subst this'.
  rewrite (onmessage_stream_info this s parsed Hparse Htype).
  reflexivity.
Qed.

(** ** The decoders of a session *)

Lemma Step_decoder_is_latest (this next : DeviceScreen) :
  Step this next -> decoder_is_latest this -> decoder_is_latest next.
Proof.
  unfold decoder_is_latest.
  intros [ |n|rs|l|info|info] Hinv; simpl in *; auto.
Qed.

(** X11. In every reachable state the current decoder is the last one
    that was constructed, and there is no current decoder only when none
    was ever constructed. *)
Theorem current_decoder_is_latest (this : DeviceScreen) :
  Reachable this -> decoder_is_latest this.
Proof.
  induction 1 as [tag | this ev _ IH].
  - reflexivity.
  - exact (Step_decoder_is_latest _ _ (dispatch_Step ev this) IH).
Qed.

(** X12. Nothing unsets the metadata or the decoder: whatever the
    event, [stop] included, metadata that are set stay set and a decoder
    that is there is followed by a decoder. *)
Theorem metadata_and_decoder_stay (ev : Event) (this : DeviceScreen) :
  (streamInfo this <> None -> streamInfo (final (dispatch ev this)) <> None)
  /\ (converter this <> None -> converter (final (dispatch ev this)) <> None).
Proof.
  destruct (dispatch_Step ev this) as [ |n|rs|l|info|info]; simpl;
    split; auto; discriminate.
Qed.







(** ** Abrupt completions *)



(** ** [stop] *)

Lemma stop_run (this : DeviceScreen) :
  stop this
  = mkRun (Normal tt)
      (if ReadyState_eqb (readyState this) OPEN
       then set_readyState CLOSING this else this)
      ((if ReadyState_eqb (readyState this) OPEN then [ws_close] else [])
       ++ match converter this with
          | Some c => [pause c]
          | None => []
          end).
Proof.
  unfold stop; unfold_handler; simpl.
  destruct (converter this) as [c|] eqn:Hc;
    destruct (readyState this) eqn:Hrs; simpl; rewrite ?Hrs;
    try change (converter (set_readyState CLOSING this)) with (converter this);
    rewrite ?Hc; reflexivity.
Qed.

(** X16. [stop] can be repeated: the second call leaves the object as
    the first left it and does not call [ws.close] again; it pauses the
    decoder once more when there is one. *)
Theorem stop_twice (this : DeviceScreen) :
  let once := final (stop this) in
  stop once
  = mkRun (Normal tt) once
      match converter this with
      | Some c => [pause c]
      | None => []
      end.
Proof.
  intros once. subst once. rewrite !stop_run.
  destruct (readyState this) eqn:Hrs; unfold set_readyState; simpl;
    rewrite ?Hrs; reflexivity.
Qed.

(** X17. [stop] on a socket that is still connecting does not close it:
    the socket stays as it is, opens later, and the object then sends
    again. *)
Theorem stop_while_connecting (this : DeviceScreen) (event : ControlEvent) :
  readyState this = CONNECTING ->
  let stopped := final (stop this) in
  let opened := final (dispatch socket_opened stopped) in
  stopped = this
  /\ filter (fun c => match c with ws_close => true | _ => false end)
            (calls (stop this)) = []
  /\ readyState opened = OPEN
  /\ calls (sendEvent event opened) = [ws_send event].
Proof.
  intros Hrs stopped opened. subst opened stopped.
  rewrite stop_run, Hrs. simpl. rewrite Hrs.
  repeat split.
  destruct (converter this); reflexivity.
Qed.

Lemma dispatch_shut (ev : Event) (this : DeviceScreen) :
  shut (readyState this) = true ->
  shut (readyState (final (dispatch ev this))) = true
  /\ filter is_ws_send (calls (dispatch ev this)) = [].
Proof.
  intros Hshut.
  destruct (readyState this) eqn:Hrs; try discriminate Hshut;
    destruct ev; run_dispatch;
    rewrite ?Hrs in *; simpl in *; rewrite ?andb_false_r in *;
    try discriminate;
    repeat match goal with
           | Hr : readyState this = _ |- context [readyState this] => rewrite Hr
           end;
    split; reflexivity.
Qed.

Lemma run_shut (evs : list Event) (this : DeviceScreen) :
  shut (readyState this) = true ->
  filter is_ws_send (snd (run evs this)) = [].
Proof.
  revert this. induction evs as [|ev rest IH]; intros this Hshut.
  - reflexivity.
  - simpl. destruct (dispatch_shut ev this Hshut) as [Hnext Hnone].
    specialize (IH _ Hnext).
    destruct (run rest (final (dispatch ev this))) as [last cs]; simpl in *.
    now rewrite filter_app, Hnone, IH.
Qed.

(** X18. [stop] on an open socket ends the sending for good: whatever
    events follow, pointer events and [sendEvent] included, the object
    never calls [ws.send] again.  (A socket that is closing does not
    reopen.) *)
Theorem no_send_after_stop (evs : list Event) (this : DeviceScreen) :
  readyState this = OPEN ->
  filter is_ws_send (snd (run (call_stop :: evs) this)) = [].
Proof.
  intros Hopen.
  change (run (call_stop :: evs) this)
    with (let r := stop this in
          let (last, cs) := run evs (final r) in (last, calls r ++ cs)).
  rewrite stop_run, Hopen. simpl.
  pose proof (run_shut evs (set_readyState CLOSING this) eq_refl) as Hnone.
  destruct (run evs (set_readyState CLOSING this)) as [last cs]; simpl in *.
  destruct (converter this); simpl; exact Hnone.
Qed.

(** ** Errors *)

(** X19. There is one listener at a time: after [setErrorListener l],
    an error on the socket or on the video element calls [l], once, with
    the error, whatever listener was registered before; the message
    [WS closed] is logged after it when the socket is closed.  While no
    listener was ever registered an error calls no listener. *)
Theorem last_listener_is_called
    (this : DeviceScreen) (l : Listener) (e : ErrorArg) :
  let closed_log :=
    if ReadyState_eqb (readyState this) CLOSED
    then [console_error "WS closed"] else [] in
  let registered := final (setErrorListener l this) in
  onError e registered = mkRun (Normal tt) registered (OnError l e :: closed_log)
  /\ (errorListener this = None ->
      onError e this = mkRun (Normal tt) this closed_log).
Proof.
  intros closed_log registered. subst closed_log registered.
  unfold onError, setErrorListener; unfold_handler; simpl. split.
  - destruct (readyState this); reflexivity.
  - intros ->. destruct (readyState this); reflexivity.
Qed.

(** ** What each event can change *)

(** X20. The counter after a sequence of events is the counter before
    it, plus the presses, minus the releases; no other event and no
    outcome of the translation has a part in it. *)
Theorem down_after_run (evs : list Event) (this : DeviceScreen) :
  down (fst (run evs this)) = (down this + down_total evs)%Z.
Proof.
  revert this. induction evs as [|ev rest IH]; intros this.
  - simpl. lia.
  - rewrite run_cons, IH, dispatch_down. simpl. lia.
Qed.

(** X21. Each field has its writers: the video element is never
    replaced; the listener changes only in [setErrorListener]; the ready
    state changes only when the socket opens or closes and in [stop];
    the metadata change only in [setStreamInfo] and in [ws.onmessage];
    the decoder changes only in [ws.onmessage].  Pointer events and
    [sendEvent] change none of them. *)
Theorem field_writers (ev : Event) (this : DeviceScreen) :
  let next := final (dispatch ev this) in
  tag next = tag this
  /\ (errorListener next <> errorListener this ->
      exists l, ev = call_setErrorListener l)
  /\ (readyState next <> readyState this ->
      ev = socket_opened \/ ev = socket_closed \/ ev = call_stop)
  /\ (streamInfo next <> streamInfo this ->
      (exists info, ev = call_setStreamInfo info)
      \/ exists data, ev = ws_onmessage data)
  /\ (converter next <> converter this -> exists data, ev = ws_onmessage data).
Proof.
  intros next. subst next.
  destruct ev; run_dispatch; repeat split; intros Hneq;
    try (exfalso; apply Hneq; reflexivity); try congruence; eauto.
Qed.

(** X22. Video data that arrive before the first metadata message are
    lost: with no decoder yet, the binary payload is handed to
    [JSON.parse], which rejects it, and the decoder that the metadata
    message constructs afterwards is fed the later payloads only. *)
Theorem early_frames_are_lost
    (this : DeviceScreen) (s : string) (parsed : JSValue)
    (early later : list Z) :
  converter this = None ->
  JSON_parse "[object ArrayBuffer]" = None ->
  JSON_parse s = Some parsed ->
  type_is parsed MESSAGE_TYPE_STREAM_INFO = true ->
  snd (run [ws_onmessage (ArrayBuffer early);
            ws_onmessage (Text s);
            ws_onmessage (ArrayBuffer later)] this)
  = [console_log log_undefined;
     VideoConverter_new (allocated this) (tag this)
       (StreamInfo.frameRate (StreamInfo_new parsed)) DEFAULT_FPF;
     play (allocated this);
     appendRawData (allocated this) later].
Proof.
  intros Hnone Hbinary Hparse Htype. simpl.
  rewrite (early_binary_discarded this early Hnone Hbinary). simpl.
  rewrite (onmessage_stream_info this s parsed Hparse Htype), Hnone.
  reflexivity.
Qed.

End Session.

(** ** Closed instances *)

(** C1. The object is streaming a 1920x1080 stream with the decoder
    constructed first, and the peer announces the same metadata again.
    The two [StreamInfo] values are equal, the handler neither flushes
    nor pauses the running decoder, and yet it constructs a second
    decoder, starts it and installs it in place of the first. *)
Theorem equal_metadata_replaces_decoder :
  let this := Android.streaming in
  let r := @onmessage Android.imports (Text Android.text_1080p) this in
  converter this = Some 0%nat
  /\ streamInfo this = Some Android.info_1080p
  /\ StreamInfo.equals Android.info_1080p
       (Android.new_StreamInfo (Android.stream_info_value 1920 1080 60)) = true
  /\ (exists fresh : VideoConverter,
        fresh <> 0%nat
        /\ calls r = [VideoConverter_new fresh 7%nat 60 DEFAULT_FPF; play fresh]
        /\ converter (final r) = Some fresh).
Proof.
  intros this r.
  repeat (split; [reflexivity|]).
  exact (@equal_metadata_restart Android.imports this Android.text_1080p
           (Android.stream_info_value 1920 1080 60) 0%nat Android.info_1080p
           (@Reachable_state_after Android.imports _ _)
           eq_refl eq_refl eq_refl eq_refl eq_refl).
Qed.

(** C2 fails as stated: after [setStreamInfo] on a new object the
    metadata are set and there is no decoder. *)
Lemma streamInfo_without_decoder :
  let this := @state_after Android.imports
                [call_setStreamInfo Android.info_1080p] 7%nat in
  @Reachable Android.imports this
  /\ streamInfo this = Some Android.info_1080p
  /\ converter this = None.
Proof.
  intros this. split; [apply Reachable_state_after|].
  split; reflexivity.
Qed.

(** The streaming object has a decoder, hence metadata. *)
Lemma decoder_implies_streamInfo_witness :
  streamInfo Android.streaming <> None.
Proof.
  apply (@decoder_implies_streamInfo Android.imports Android.streaming).
  - apply Reachable_state_after.
  - discriminate.
Defined.

(** C3 fails as stated: a release dispatched to a new object leaves the
    counter at -1. *)
Lemma release_at_zero_goes_negative :
  (down (@state_after Android.imports
           [body_onmouseup (Android.mouse "mouseup" 0 200 150)] 7%nat) = -1)%Z.
Proof. reflexivity. Qed.

(** A press, a move and a release: the counter ends at zero. *)
Lemma down_nonneg_witness :
  (0 <= down (@state_after Android.imports
                (firstn 3 [body_onmousedown (Android.mouse "mousedown" 0 200 150);
                           body_onmousemove (Android.mouse "mousemove" 0 210 150);
                           body_onmouseup (Android.mouse "mouseup" 0 210 150)]) 7%nat))%Z.
Proof.
  apply (@down_nonneg_when_releases_follow_presses Android.imports).
  reflexivity.
Defined.

(** The streaming object is told that the stream is now 1280x720. *)
Lemma renegotiation_witness :
  let r := @onmessage Android.imports (Text Android.text_720p) Android.streaming in
  exists fresh : VideoConverter,
    fresh <> 0%nat
    /\ completion r = Normal tt
    /\ calls r = [appendRawData 0%nat []; pause 0%nat;
                  VideoConverter_new fresh 7%nat 60 DEFAULT_FPF; play fresh]
    /\ converter (final r) = Some fresh
    /\ streamInfo (final r) = Some (StreamInfo.mk 1280 720 60 "").
Proof.
  exact (@renegotiation_flushes_and_stops_first Android.imports
           Android.streaming Android.text_720p
           (Android.stream_info_value 1280 720 60) 0%nat Android.info_1080p
           (@Reachable_state_after Android.imports _ _)
           eq_refl eq_refl eq_refl eq_refl eq_refl).
Defined.

(** The pointer of the worked example at (200, 10), above the picture. *)
Lemma padding_is_rejected_witness :
  @buildMotionEvent Android.imports (Android.mouse "mousemove" 0 200 10)
                    (Some Android.info_1080p) = None.
Proof.
  apply (@padding_is_rejected Android.imports).
  left. split; [reflexivity|]. left. reflexivity.
Defined.

(** A move over the middle of the picture, without and with a button held. *)
Lemma drag_move_suppression_witness :
  let e := Android.mouse "mousemove" 0 200 150 in
  @onmousemove Android.imports e (set_down 0%Z Android.streaming)
  = mkRun (Normal tt) (set_down 0%Z Android.streaming) []
  /\ exists p : Point.t,
       @onmousemove Android.imports e (set_down 1%Z Android.streaming)
       = mkRun (Normal tt) (set_down 1%Z Android.streaming)
           [ws_send (Motion (mkMotionControlEvent 2%Z (Some 17%Z)
                               (Position.mk p (Size.mk 1920 1080))));
            preventDefault; stopPropagation].
Proof.
  intros e.
  destruct (@drag_move_suppression Android.imports e Android.streaming)
    as [Hzero Hdrag].
  split.
  - apply Hzero. lia.
  - apply (Hdrag Android.info_1080p 1%Z); first [reflexivity | lia].
Defined.

(** A new object, whose socket is still connecting. *)
Lemma no_send_unless_open_witness :
  let this := DeviceScreen_new 7%nat in
  (forall event, @sendEvent event this = mkRun (Normal tt) this [])
  /\ (forall e, @onMouseEvent Android.imports e this
                = mkRun (Normal (Some true)) this [])
  /\ (forall ev, filter is_ws_send (calls (@dispatch Android.imports ev this)) = []).
Proof.
  apply (@no_send_unless_open Android.imports (DeviceScreen_new 7%nat)).
  discriminate.
Defined.

(** A truncated text reaches the streaming object. *)
Lemma malformed_message_witness :
  @onmessage Android.imports (Text "{type:") Android.streaming
  = mkRun (Normal tt) Android.streaming [console_log log_undefined].
Proof.
  apply (@malformed_message_discarded Android.imports).
  reflexivity.
Defined.

(** A press of the fourth button over the middle of the picture. *)
Lemma unknown_button_witness :
  let e := Android.mouse "mousedown" 3 200 150 in
  exists p : Point.t,
    let event := mkMotionControlEvent 0%Z None (Position.mk p (Size.mk 1920 1080)) in
    @buildMotionEvent Android.imports e (Some Android.info_1080p) = Some event
    /\ forall this,
         streamInfo this = Some Android.info_1080p ->
         readyState this = OPEN ->
         node (target e) = tag this ->
         @onMouseEvent Android.imports e this
         = mkRun (Normal (Some false)) this
             [ws_send (Motion event); preventDefault; stopPropagation].
Proof.
  apply (@unknown_button_is_sent_undefined Android.imports
           (Android.mouse "mousedown" 3 200 150) Android.info_1080p 0%Z);
    (discriminate || reflexivity).
Defined.

(** ** Closed instances of the further properties *)

(** A press of the middle button over the middle of the picture. *)
Lemma buildMotionEvent_fields_witness :
  @EVENT_ACTION_MAP Android.imports "mousedown" = Some 0%Z
  /\ Some 4%Z = @BUTTONS_MAP Android.imports 1
  /\ Size.mk 1920 1080 = stream_size Android.info_1080p.
Proof.
  exact (@buildMotionEvent_fields Android.imports
           (Android.mouse "mousedown" 1 200 150) Android.info_1080p
           (mkMotionControlEvent 0 (Some 4%Z)
              (Position.mk (Point.mk 960 540) (Size.mk 1920 1080)))
           eq_refl).
Defined.

(** A release in the middle of a 960x540 element showing a 1920x1080
    stream. *)
Lemma equal_ratios_witness :
  @buildMotionEvent Android.imports
    (mkMouseEvent "mouseup" 2 480 270 Diagnostics.video_16_9)
    (Some Android.info_1080p)
  = Some (mkMotionControlEvent 1 (Some 26%Z)
            (Position.mk (Point.mk 960 540) (Size.mk 1920 1080))).
Proof.
  exact (@equal_ratios_scale_linearly Android.imports
           (mkMouseEvent "mouseup" 2 480 270 Diagnostics.video_16_9)
           Android.info_1080p 1%Z eq_refl eq_refl).
Defined.

(** A press above the picture, on the video element. *)
Lemma padding_event_swallowed_witness :
  @onMouseEvent Android.imports (Android.mouse "mousedown" 0 200 10)
                Android.streaming
  = mkRun (Normal (Some false)) Android.streaming
          [preventDefault; stopPropagation].
Proof.
  exact (@padding_event_swallowed Android.imports
           (Android.mouse "mousedown" 0 200 10) Android.streaming
           Android.info_1080p eq_refl eq_refl eq_refl eq_refl).
Defined.

(** A press on the video element of an object whose socket has opened
    and which has received no metadata. *)
Lemma no_stream_event_passes_witness :
  let this := @state_after Android.imports [socket_opened] 7%nat in
  @onMouseEvent Android.imports (Android.mouse "mousedown" 0 200 150) this
  = mkRun (Normal None) this [].
Proof.
  exact (@no_stream_event_passes Android.imports
           (Android.mouse "mousedown" 0 200 150)
           (@state_after Android.imports [socket_opened] 7%nat)
           eq_refl eq_refl eq_refl).
Defined.

(** A press on the sidebar, then a move over the middle of the picture. *)
Lemma press_elsewhere_witness :
  exists p : Point.t,
    snd (@run Android.imports
           [body_onmousedown (mkMouseEvent "mousedown" 0 5 5 Diagnostics.sidebar);
            body_onmousemove (Android.mouse "mousemove" 0 200 150)]
           Android.streaming)
    = [ws_send (Motion (mkMotionControlEvent 2 (Some 17%Z)
                          (Position.mk p (Size.mk 1920 1080))));
       preventDefault; stopPropagation].
Proof.
  apply (@press_elsewhere_arms_drag Android.imports
           (mkMouseEvent "mousedown" 0 5 5 Diagnostics.sidebar)
           (Android.mouse "mousemove" 0 200 150)
           Android.streaming Android.info_1080p);
    first [reflexivity | discriminate].
Defined.

(** A diagnostic message reaches the streaming object. *)
Lemma other_messages_witness :
  let this := @state_after Diagnostics.imports
                [socket_opened; ws_onmessage (Text Android.text_1080p)] 7%nat in
  @onmessage Diagnostics.imports (Text Diagnostics.text_hello) this
  = mkRun (Normal tt) this [console_log (log_value (JString "hello"))].
Proof.
  apply (@other_messages_only_log Diagnostics.imports _
           Diagnostics.text_hello Diagnostics.value_hello);
    first [reflexivity | discriminate].
Defined.

(** The first metadata message of a session. *)
Lemma first_metadata_witness :
  let r := @onmessage Android.imports (Text Android.text_1080p)
                      (DeviceScreen_new 7%nat) in
  completion r = Normal tt
  /\ calls r = [VideoConverter_new 0 7 60 DEFAULT_FPF; play 0]
  /\ converter (final r) = Some 0%nat
  /\ streamInfo (final r) = Some Android.info_1080p.
Proof.
  exact (@first_metadata_starts_decoder Android.imports
           (DeviceScreen_new 7%nat) Android.text_1080p
           (Android.stream_info_value 1920 1080 60)
           eq_refl eq_refl eq_refl).
Defined.

(** Five bytes of video after the first metadata message. *)
Lemma binary_goes_to_new_decoder_witness :
  @onmessage Android.imports (ArrayBuffer [0; 0; 0; 1; 103]%Z) Android.streaming
  = mkRun (Normal tt) Android.streaming
          [appendRawData 0 [0; 0; 0; 1; 103]%Z].
Proof.
  exact (@binary_goes_to_new_decoder Android.imports
           (@state_after Android.imports [socket_opened] 7%nat)
           Android.text_1080p (Android.stream_info_value 1920 1080 60)
           [0; 0; 0; 1; 103]%Z eq_refl eq_refl).
Defined.

(** The streaming object has constructed one decoder, its current one. *)
Lemma current_decoder_witness :
  allocated Android.streaming = 1%nat.
Proof.
  exact (@current_decoder_is_latest Android.imports Android.streaming
           (@Reachable_state_after Android.imports _ _)).
Defined.

(** [stop] on the streaming object keeps its metadata and its decoder. *)
Lemma metadata_and_decoder_stay_witness :
  streamInfo (final (@dispatch Android.imports call_stop Android.streaming)) <> None
  /\ converter (final (@dispatch Android.imports call_stop Android.streaming)) <> None.
Proof.
  destruct (@metadata_and_decoder_stay Android.imports call_stop Android.streaming)
    as [Hinfo Hconv].
  split; [apply Hinfo | apply Hconv]; discriminate.
Defined.


(** [stop] on a new object, whose socket then opens. *)
Lemma stop_while_connecting_witness :
  let this := DeviceScreen_new 7%nat in
  let stopped := final (stop this) in
  let opened := final (@dispatch Android.imports socket_opened stopped) in
  stopped = this
  /\ filter (fun c => match c with ws_close => true | _ => false end)
            (calls (stop this)) = []
  /\ readyState opened = OPEN
  /\ calls (sendEvent (Command 4 []) opened) = [ws_send (Command 4 [])].
Proof.
  exact (@stop_while_connecting Android.imports (DeviceScreen_new 7%nat)
           (Command 4 []) eq_refl).
Defined.

(** [stop] on the streaming object, then a drag and a [sendEvent]. *)
Lemma no_send_after_stop_witness :
  filter is_ws_send
    (snd (@run Android.imports
            [call_stop;
             body_onmousedown (Android.mouse "mousedown" 0 200 150);
             body_onmousemove (Android.mouse "mousemove" 0 210 150);
             call_sendEvent (Command 4 [])]
            Android.streaming))
  = [].
Proof.
  exact (@no_send_after_stop Android.imports
           [body_onmousedown (Android.mouse "mousedown" 0 200 150);
            body_onmousemove (Android.mouse "mousemove" 0 210 150);
            call_sendEvent (Command 4 [])]
           Android.streaming eq_refl).
Defined.

(** An error on a new object, before and after a listener is registered. *)
Lemma last_listener_witness :
  let this := DeviceScreen_new 7%nat in
  onError (ErrorString "timeout") (final (setErrorListener 1%nat this))
  = mkRun (Normal tt) (final (setErrorListener 1%nat this))
          [OnError 1%nat (ErrorString "timeout")]
  /\ onError (ErrorString "timeout") this = mkRun (Normal tt) this [].
Proof.
  destruct (last_listener_is_called (DeviceScreen_new 7%nat)
              1%nat (ErrorString "timeout")) as [Hcall Hnone].
  split; [exact Hcall | exact (Hnone eq_refl)].
Defined.

(** [stop] on the streaming object changes the ready state, and [stop] is
    one of the three events that may. *)
Lemma field_writers_witness :
  call_stop = socket_opened \/ call_stop = socket_closed \/ call_stop = call_stop.
Proof.
  destruct (@field_writers Android.imports call_stop Android.streaming)
    as [_ [_ [Hready _]]].
  apply Hready. discriminate.
Defined.

(** Video data, then the first metadata message, then video data. *)
Lemma early_frames_witness :
  snd (@run Android.imports
         [ws_onmessage (ArrayBuffer [0; 0; 0; 1; 103]%Z);
          ws_onmessage (Text Android.text_1080p);
          ws_onmessage (ArrayBuffer [0; 0; 0; 1; 104]%Z)]
         (DeviceScreen_new 7%nat))
  = [console_log log_undefined;
     VideoConverter_new 0 7 60 DEFAULT_FPF; play 0;
     appendRawData 0 [0; 0; 0; 1; 104]%Z].
Proof.
  exact (@early_frames_are_lost Android.imports (DeviceScreen_new 7%nat)
           Android.text_1080p (Android.stream_info_value 1920 1080 60)
           [0; 0; 0; 1; 103]%Z [0; 0; 0; 1; 104]%Z
           eq_refl eq_refl eq_refl eq_refl).
Defined.
